(** * NAT2 genotype analysis: a shallow embedding of [Hackathon_Phas1.py]

    The decision logic of the program is the module-level table
    [NAT2_GENOTYPES] and the two methods of [NAT2Analyzer],
    [analyze_genotype] and [get_dosing_recommendation].  Python
    dictionaries become [gmap]s, the insertion-ordered iteration
    [NAT2_GENOTYPES.items()] becomes a list of [(key, value)] pairs in
    source order, subscripting [d[k]] is a lookup that may raise
    [KeyError], and the floating-point literals are binary64 floats.
    Of [create_app] the development covers what decides something: the
    loop that fills the form's dictionary, the analysis followed by the
    recommendation, and the class totals and rows of the population
    statistics; widgets and charts are left out. *)

From Stdlib Require Import PrimFloat.
From stdpp Require Import gmap strings list fin_maps.

(* The decimal literals of the source round to binary64, as in Python. *)
#[local] Set Warnings "-inexact-float".

Open Scope string_scope.

(** ** Python results: a value or a raised exception *)

Inductive exn : Type :=
  | KeyError (key : Z).

Inductive result (A : Type) : Type :=
  | Ret (a : A)
  | Raise (e : exn).

Arguments Ret {A} a.
Arguments Raise {A} e.

(** Sequencing: an exception raised by the first computation propagates. *)
#[global] Instance result_bind : MBind result := fun A B k r =>
  match r with
  | Ret a => k a
  | Raise e => Raise e
  end.

(** [d[k]] on a dictionary with integer keys. *)
Definition subscript (d : gmap Z string) (k : Z) : result string :=
  match d !! k with
  | Some v => Ret v
  | None => Raise (KeyError k)
  end.

(** [d.get(k, dflt)]: never raises. *)
Definition get (d : gmap Z string) (k : Z) (dflt : string) : string :=
  default dflt (d !! k).

(** ** The reference table *)

(** The value stored under each genotype label. *)
Record genotype_data : Type := {
  acetylator_type : string;
  frequency : float;
  mutations : gmap Z string
}.

Definition NAT2_GENOTYPES : list (string * genotype_data) :=
  [ ("NAT2*4/*4",
     {| acetylator_type := "Fast";
        frequency := 3.3%float;
        mutations := <[282%Z := "."]> (<[341%Z := "."]> (<[481%Z := "."]>
                    (<[590%Z := "."]> (<[803%Z := "."]> (<[857%Z := "."]> ∅))))) |});
    ("NAT2*4/*14",
     {| acetylator_type := "Intermediate";
        frequency := 0.8%float;
        mutations := <[282%Z := "."]> (<[341%Z := "."]> (<[481%Z := "."]>
                    (<[590%Z := "."]> (<[803%Z := "A"]> (<[857%Z := "G"]> ∅))))) |});
    ("NAT2*4/*5",
     {| acetylator_type := "Intermediate";
        frequency := 15.0%float;
        mutations := <[282%Z := "."]> (<[341%Z := "C"]> (<[481%Z := "T"]>
                    (<[590%Z := "."]> (<[803%Z := "G"]> (<[857%Z := "."]> ∅))))) |});
    ("NAT2*5/*5",
     {| acetylator_type := "Slow";
        frequency := 24.2%float;
        mutations := <[282%Z := "."]> (<[341%Z := "C"]> (<[481%Z := "T"]>
                    (<[590%Z := "."]> (<[803%Z := "G"]> (<[857%Z := "."]> ∅))))) |});
    ("NAT2*6/*6",
     {| acetylator_type := "Slow";
        frequency := 15.8%float;
        mutations := <[282%Z := "T"]> (<[341%Z := "."]> (<[481%Z := "."]>
                    (<[590%Z := "A"]> (<[803%Z := "."]> (<[857%Z := "."]> ∅))))) |}) ].

(** ** [NAT2Analyzer] *)

(** [self.mutation_positions], set once in [__init__]. *)
Definition mutation_positions : list Z := [282; 341; 481; 590; 803; 857]%Z.

(** [all(mutations.get(pos, '.') == data['mutations'][pos] for pos in ps)]:
    the generator is consumed from the left and [all] stops at the first
    [False]; a [KeyError] from the subscript surfaces only if that
    position is reached. *)
Fixpoint all_match (obs : gmap Z string) (data : genotype_data)
    (ps : list Z) : result bool :=
  match ps with
  | [] => Ret true
  | pos :: ps' =>
      let observed := get obs pos "." in
      expected ← subscript (mutations data) pos;
      if String.eqb observed expected then all_match obs data ps'
      else Ret false
  end.

(** The [for genotype, data in ...items()] loop over a table, with the
    early [return] inside and the sentinel after the loop. *)
Fixpoint scan (table : list (string * genotype_data)) (obs : gmap Z string)
    : result (string * string * float) :=
  match table with
  | [] => Ret ("Unknown", "Unknown", 0.0%float)
  | (genotype, data) :: rest =>
      hit ← all_match obs data mutation_positions;
      if (hit : bool) then Ret (genotype, acetylator_type data, frequency data)
      else scan rest obs
  end.

Definition analyze_genotype (obs : gmap Z string)
    : result (string * string * float) :=
  scan NAT2_GENOTYPES obs.

(** The value dictionaries of [get_dosing_recommendation]: four fixed
    string keys, read by the caller as [r['dose']] and so on. *)
Record recommendation : Type := {
  dose : string;
  risk : string;
  monitoring : string;
  details : string
}.

Definition recommendations : gmap string recommendation :=
  <["Fast" :=
      {| dose := "5-6 mg/kg/day";
         risk := "Lower risk of adverse effects, monitor for treatment efficacy";
         monitoring := "Regular liver function tests every 3 months";
         details := "May require higher doses to maintain therapeutic levels" |}]>
  (<["Intermediate" :=
      {| dose := "4-5 mg/kg/day";
         risk := "Moderate risk of adverse effects";
         monitoring := "Liver function tests every 2 months";
         details := "Standard dosing usually appropriate" |}]>
  (<["Slow" :=
      {| dose := "2.5-4 mg/kg/day";
         risk := "Higher risk of drug-induced liver injury";
         monitoring := "Monthly liver function tests";
         details := "Requires reduced dosing to prevent toxicity" |}]> ∅)).

Definition get_dosing_recommendation (acetylator : string) : recommendation :=
  default
    {| dose := "Consult specialist";
       risk := "Unknown";
       monitoring := "Frequent monitoring required";
       details := "Individual assessment needed" |}
    (recommendations !! acetylator).

(** ** Predicates used to state the properties *)

(** The record [data] expects, at every position of [ps], exactly the
    value observed there, an absent position counting as ['.']. *)
Definition agrees_on (ps : list Z) (obs : gmap Z string)
    (data : genotype_data) : Prop :=
  Forall (λ pos, mutations data !! pos = Some (get obs pos ".")) ps.

Definition agrees (obs : gmap Z string) (data : genotype_data) : Prop :=
  agrees_on mutation_positions obs data.

(** Every position of [ps] is a key of the record's [mutations]. *)
Definition complete_on (ps : list Z) (data : genotype_data) : Prop :=
  Forall (λ pos, is_Some (mutations data !! pos)) ps.

Definition table_complete (table : list (string * genotype_data)) : Prop :=
  Forall (λ entry, complete_on mutation_positions (snd entry)) table.

(** What the loop body returns on a hit. *)
Definition answer (entry : string * genotype_data) : string * string * float :=
  (fst entry, acetylator_type (snd entry), frequency (snd entry)).

Definition sentinel : string * string * float :=
  ("Unknown", "Unknown", 0.0%float).

(** The expected values of a record, read off in position order. *)
Definition expected_tuple (data : genotype_data) : list (option string) :=
  (λ pos, mutations data !! pos) <$> mutation_positions.

(** [needle] occurs somewhere in [text]. *)
Definition mentions (needle text : string) : bool :=
  match String.index 0 needle text with
  | Some _ => true
  | None => false
  end.

#[global] Instance agrees_on_dec ps obs data : Decision (agrees_on ps obs data).
Proof. unfold agrees_on. apply _. Defined.

#[global] Instance agrees_dec obs data : Decision (agrees obs data).
Proof. unfold agrees. apply _. Defined.

#[global] Instance complete_on_dec ps data : Decision (complete_on ps data).
Proof. unfold complete_on. apply _. Defined.

#[global] Instance table_complete_dec table : Decision (table_complete table).
Proof. unfold table_complete. apply _. Defined.

(** Sample observations. *)
Definition obs_of (v282 v341 v481 v590 v803 v857 : string) : gmap Z string :=
  <[282%Z := v282]> (<[341%Z := v341]> (<[481%Z := v481]>
  (<[590%Z := v590]> (<[803%Z := v803]> (<[857%Z := v857]> ∅))))).

(** ** [create_app]: the patient form and the report *)

(** The [options] of each select box of the patient form. *)
Definition options : list string := ["."; "A"; "C"; "G"; "T"].

(** The loop [for i, pos in enumerate(analyzer.mutation_positions)] that
    fills the dictionary [mutations], starting from [{}].  The widget
    library is outside the program: the value the select box of a position
    returns is the parameter [select]. *)
Definition form_mutations (select : Z -> string) : gmap Z string :=
  foldl (λ mutations pos, <[pos := select pos]> mutations) ∅ mutation_positions.

(** The body of [if st.button("Generate Recommendations")], up to the
    rendering: the analysis, then the recommendation for the acetylator
    type it returned. *)
Definition generate_recommendations (mutations : gmap Z string)
    : result (string * string * float * recommendation) :=
  '(genotype, acetylator, freq) ← analyze_genotype mutations;
  Ret (genotype, acetylator, freq, get_dosing_recommendation acetylator).

(** ** [create_app]: the population statistics *)

(** The items of the generator
    [data['frequency'] for data in table.values()
     if data['acetylator_type'] == cls]. *)
Definition class_frequencies (table : list (string * genotype_data))
    (cls : string) : list float :=
  frequency <$> filter (λ data, acetylator_type data = cls) (snd <$> table).

(** A Python number: [sum] starts from the integer [0]. *)
Inductive number : Type :=
  | PyInt (n : Z)
  | PyFloat (x : float).

(** The builtin [sum] on floats, adding from left to right; the first
    item is added to the integer [0], that is to [0.0], and an empty
    iterable gives the integer [0]. *)
Definition sum_plain (xs : list float) : number :=
  match xs with
  | [] => PyInt 0
  | x :: xs' => PyFloat (foldl PrimFloat.add (0 + x)%float xs')
  end.

(** One step of the compensated summation of floats that newer
    interpreters use in [sum]: the running total and the running
    compensation. *)
Definition compensated_step (acc : float * float) (x : float) : float * float :=
  let '(total, c) := acc in
  let t := (total + x)%float in
  (t, if (abs x <=? abs total)%float then (c + ((total - t) + x))%float
      else (c + ((x - t) + total))%float).

Definition sum_compensated (xs : list float) : number :=
  match xs with
  | [] => PyInt 0
  | x :: xs' =>
      let '(total, c) := foldl compensated_step ((0 + x)%float, 0%float) xs' in
      PyFloat (if negb (is_zero c) && is_finite c then (total + c)%float
               else total)
  end.

(** The dictionary [frequencies], in insertion order, for a given [sum]. *)
Definition frequencies (sum : list float -> number) : list (string * number) :=
  [ ("Fast", sum (class_frequencies NAT2_GENOTYPES "Fast"));
    ("Intermediate", sum (class_frequencies NAT2_GENOTYPES "Intermediate"));
    ("Slow", sum (class_frequencies NAT2_GENOTYPES "Slow")) ].

(** The rows of [genotype_df]: genotype, acetylator type and frequency of
    every table entry, in table order. *)
Definition genotype_df : list (string * string * float) :=
  (λ entry, (fst entry, acetylator_type (snd entry), frequency (snd entry)))
    <$> NAT2_GENOTYPES.

(** ** Further predicates *)

(** The six observed values in position order, absent ones as ['.']. *)
Definition observed_tuple (obs : gmap Z string) : list string :=
  (λ pos, get obs pos ".") <$> mutation_positions.

(** The analysis written as a decision table on the observed values. *)
Definition lookup_by_tuple (vs : list string) : string * string * float :=
  if decide (vs = ["."; "."; "."; "."; "."; "."])
  then ("NAT2*4/*4", "Fast", 3.3%float)
  else if decide (vs = ["."; "."; "."; "."; "A"; "G"])
  then ("NAT2*4/*14", "Intermediate", 0.8%float)
  else if decide (vs = ["."; "C"; "T"; "."; "G"; "."])
  then ("NAT2*4/*5", "Intermediate", 15.0%float)
  else if decide (vs = ["T"; "."; "."; "A"; "."; "."])
  then ("NAT2*6/*6", "Slow", 15.8%float)
  else ("Unknown", "Unknown", 0.0%float).

(** The label of a result is a genotype of the table. *)
Definition recognised (r : result (string * string * float)) : bool :=
  match r with
  | Ret (genotype, _, _) => negb (String.eqb genotype "Unknown")
  | Raise _ => false
  end.

(** Every dictionary the form can submit: one option per position. *)
Definition all_forms : list (gmap Z string) :=
  v282 ← options; v341 ← options; v481 ← options;
  v590 ← options; v803 ← options; v857 ← options;
  [form_mutations (λ pos,
     if decide (pos = 282%Z) then v282 else if decide (pos = 341%Z) then v341
     else if decide (pos = 481%Z) then v481 else if decide (pos = 590%Z) then v590
     else if decide (pos = 803%Z) then v803 else v857)].

(** ** The matching predicate *)

Section Matching.
Variable obs : gmap Z string.
Variable data : genotype_data.

Lemma all_match_cons pos ps expected :
  mutations data !! pos = Some expected ->
  all_match obs data (pos :: ps) =
    if String.eqb (get obs pos ".") expected then all_match obs data ps
    else Ret false.
Proof. intros H. simpl. unfold subscript. rewrite H. reflexivity. Qed.

Lemma all_match_decide ps :
  complete_on ps data ->
  all_match obs data ps = Ret (bool_decide (agrees_on ps obs data)).
Proof.
  induction ps as [|pos ps IH]; intros Hc.
  - rewrite bool_decide_eq_true_2; [reflexivity | constructor].
  - apply Forall_cons in Hc as [[e He] Hc].
    rewrite (all_match_cons _ _ _ He).
    destruct (String.eqb (get obs pos ".") e) eqn:E.
    + apply String.eqb_eq in E. rewrite (IH Hc). f_equal.
      apply bool_decide_ext. unfold agrees_on. rewrite Forall_cons.
      rewrite He, E. tauto.
    + apply String.eqb_neq in E. f_equal. symmetry.
      apply bool_decide_eq_false_2. unfold agrees_on. rewrite Forall_cons.
      rewrite He. intros [Heq _]. congruence.
Qed.

Lemma all_match_true ps :
  all_match obs data ps = Ret true <-> agrees_on ps obs data.
Proof.
  unfold agrees_on. induction ps as [|pos ps IH].
  - split; [constructor | reflexivity].
  - rewrite Forall_cons. simpl. unfold subscript.
    destruct (mutations data !! pos) as [e|]; simpl.
    + destruct (String.eqb (get obs pos ".") e) eqn:E.
      * apply String.eqb_eq in E. rewrite IH, E. tauto.
      * apply String.eqb_neq in E. split; [discriminate|].
        intros [Heq _]. congruence.
    + split; [discriminate | intros [? _]; discriminate].
Qed.
End Matching.

(** ** The scanning loop is a first-match search *)

Section Scan.
Variable obs : gmap Z string.

(** On a table whose records carry all six positions, the loop returns
    the answer of the first agreeing entry, and the sentinel when there
    is none; it never raises. *)
Lemma scan_list_find table :
  table_complete table ->
  scan table obs =
    match list_find (λ entry, agrees obs (snd entry)) table with
    | Some (_, entry) => Ret (answer entry)
    | None => Ret sentinel
    end.
Proof.
  induction table as [|[g d] rest IH]; intros Hc; [reflexivity|].
  apply Forall_cons in Hc as [Hd Hrest]. simpl in Hd.
  cbn [scan list_find]. rewrite (all_match_decide _ _ _ Hd).
  change (agrees_on mutation_positions obs d) with (agrees obs d).
  cbn [mbind result_bind snd]. unfold decide_rel.
  destruct (decide (agrees obs d)) as [Ha|Hn].
  - rewrite bool_decide_eq_true_2 by assumption. reflexivity.
  - rewrite bool_decide_eq_false_2 by assumption. rewrite (IH Hrest).
    destruct (list_find _ rest) as [[i e]|]; reflexivity.
Qed.

(** The loop reads [obs] only through [get obs pos "."] at the six
    positions. *)
Lemma all_match_ext obs' data ps :
  Forall (λ pos, get obs pos "." = get obs' pos ".") ps ->
  all_match obs data ps = all_match obs' data ps.
Proof.
  induction 1 as [|pos ps Hpos _ IH]; [reflexivity|].
  simpl. rewrite Hpos, IH. reflexivity.
Qed.

Lemma scan_ext obs' table :
  Forall (λ pos, get obs pos "." = get obs' pos ".") mutation_positions ->
  scan table obs = scan table obs'.
Proof.
  intros H. induction table as [|[g d] rest IH]; [reflexivity|].
  cbn [scan]. rewrite (all_match_ext _ _ _ H), IH. reflexivity.
Qed.
End Scan.

Lemma NAT2_GENOTYPES_complete : table_complete NAT2_GENOTYPES.
Proof. apply (bool_decide_unpack _). vm_compute. exact I. Qed.

(** Distinct binary64 constants are told apart by the float comparison. *)
Lemma float_neq (x y : float) :
  PrimFloat.eqb x x = true -> PrimFloat.eqb x y = false -> x ≠ y.
Proof. intros Hx Hxy ->. congruence. Qed.

Ltac float_discr :=
  match goal with
  | H : ?x = ?y :> float |- _ =>
      exfalso; revert H; apply float_neq; vm_compute; reflexivity
  end.

(** The analyser answers with one of the table's entries or the sentinel. *)
Lemma analyze_genotype_find obs :
  analyze_genotype obs =
    match list_find (λ entry, agrees obs (snd entry)) NAT2_GENOTYPES with
    | Some (_, entry) => Ret (answer entry)
    | None => Ret sentinel
    end.
Proof. apply scan_list_find, NAT2_GENOTYPES_complete. Qed.

(** No observation makes the analyser raise. *)
Lemma analyze_genotype_total obs : ∃ r, analyze_genotype obs = Ret r.
Proof.
  rewrite analyze_genotype_find.
  destruct (list_find _ NAT2_GENOTYPES) as [[i e]|]; eexists; reflexivity.
Qed.

(** ** Properties of [analyze_genotype] *)

(** Four of the five records are found again from their own expected
    alleles. *)
Lemma analyze_genotype_own_alleles g d :
  (g, d) ∈ NAT2_GENOTYPES -> g ≠ "NAT2*5/*5" ->
  analyze_genotype (mutations d) = Ret (g, acetylator_type d, frequency d).
Proof.
  intros Hin Hg. unfold NAT2_GENOTYPES in Hin.
  repeat (apply elem_of_cons in Hin as [Heq|Hin];
          [injection Heq as -> ->; try congruence; vm_compute; reflexivity|]).
  inversion Hin.
Qed.

(** C1: the record NAT2*5/*5, fourth in the table, is not found again from
    its own expected alleles: the analyser answers with the earlier record
    NAT2*4/*5, so the round trip promised for every record fails there. *)
Theorem analyze_genotype_NAT2_5_5_shadowed :
  ∃ d, NAT2_GENOTYPES !! 3%nat = Some ("NAT2*5/*5", d) ∧
       analyze_genotype (mutations d)
         = Ret ("NAT2*4/*5", "Intermediate", 15.0%float) ∧
       analyze_genotype (mutations d)
         ≠ Ret ("NAT2*5/*5", acetylator_type d, frequency d).
Proof.
  eexists. split; [reflexivity|]. split; [vm_compute; reflexivity|].
  vm_compute. intros H. discriminate H.
Qed.

(** C2: whenever some record of the table agrees with the observation at
    all six positions, the analyser returns the label, acetylator type and
    frequency of the agreeing record with the smallest index in the table. *)
Theorem analyze_genotype_first_match (obs : gmap Z string) :
  (∃ entry, entry ∈ NAT2_GENOTYPES ∧ agrees obs (snd entry)) ->
  ∃ (i : nat) g d,
    NAT2_GENOTYPES !! i = Some (g, d) ∧
    agrees obs d ∧
    (∀ (j : nat) g' d', (j < i)%nat -> NAT2_GENOTYPES !! j = Some (g', d') ->
                        ¬ agrees obs d') ∧
    analyze_genotype obs = Ret (g, acetylator_type d, frequency d).
Proof.
  intros (e & Hin & He). rewrite analyze_genotype_find.
  destruct (list_find _ NAT2_GENOTYPES) as [[i [g d]]|] eqn:Hfind.
  - apply list_find_Some in Hfind as (Hi & Ha & Hmin).
    exists i, g, d. repeat split; try assumption.
    intros j g' d' Hlt Hj. exact (Hmin j (g', d') Hj Hlt).
  - exfalso. apply list_find_None in Hfind.
    rewrite Forall_forall in Hfind. exact (Hfind e Hin He).
Qed.

Lemma analyze_genotype_first_match_witness :
  (∃ entry, entry ∈ NAT2_GENOTYPES ∧
            agrees (obs_of "." "C" "T" "." "G" ".") (snd entry)) ∧
  ∃ (i : nat) g d,
    NAT2_GENOTYPES !! i = Some (g, d) ∧
    agrees (obs_of "." "C" "T" "." "G" ".") d ∧
    (∀ (j : nat) g' d', (j < i)%nat -> NAT2_GENOTYPES !! j = Some (g', d') ->
                        ¬ agrees (obs_of "." "C" "T" "." "G" ".") d') ∧
    analyze_genotype (obs_of "." "C" "T" "." "G" ".")
      = Ret (g, acetylator_type d, frequency d).
Proof.
  assert (H : ∃ entry, entry ∈ NAT2_GENOTYPES ∧
                       agrees (obs_of "." "C" "T" "." "G" ".") (snd entry)).
  { eexists. split; [apply (list_elem_of_lookup_2 _ 3%nat); reflexivity|].
    apply (bool_decide_unpack _). vm_compute. exact I. }
  exact (conj H (analyze_genotype_first_match _ H)).
Defined.

(** C3: the expected-allele tuples of the five records are not pairwise
    distinct: NAT2*4/*5 (third) and NAT2*5/*5 (fourth) carry the same value
    at each of the six positions. *)
Theorem NAT2_GENOTYPES_tuples_collide :
  ¬ NoDup ((λ entry, expected_tuple (snd entry)) <$> NAT2_GENOTYPES) ∧
  ∃ d1 d2, NAT2_GENOTYPES !! 2%nat = Some ("NAT2*4/*5", d1) ∧
           NAT2_GENOTYPES !! 3%nat = Some ("NAT2*5/*5", d2) ∧
           expected_tuple d1 = expected_tuple d2.
Proof.
  split.
  - intros H.
    pose proof (proj1 (NoDup_alt _) H 2%nat 3%nat _ eq_refl eq_refl) as E.
    discriminate E.
  - do 2 eexists. repeat split.
Qed.

(** C4: whatever is observed, the analyser returns neither the label
    NAT2*5/*5 nor the frequency 24.2, and an observation agreeing with the
    record NAT2*5/*5 is answered with NAT2*4/*5, Intermediate, 15.0. *)
Theorem analyze_genotype_never_NAT2_5_5 (obs : gmap Z string) :
  (∀ g t f, analyze_genotype obs = Ret (g, t, f) ->
            g ≠ "NAT2*5/*5" ∧ f ≠ 24.2%float) ∧
  (∀ d, ("NAT2*5/*5", d) ∈ NAT2_GENOTYPES -> agrees obs d ->
        analyze_genotype obs = Ret ("NAT2*4/*5", "Intermediate", 15.0%float)).
Proof.
  assert (Hcases :
    analyze_genotype obs = Ret ("NAT2*4/*4", "Fast", 3.3%float) ∨
    analyze_genotype obs = Ret ("NAT2*4/*14", "Intermediate", 0.8%float) ∨
    analyze_genotype obs = Ret ("NAT2*4/*5", "Intermediate", 15.0%float) ∨
    analyze_genotype obs = Ret ("NAT2*6/*6", "Slow", 15.8%float) ∨
    analyze_genotype obs = Ret sentinel).
  { rewrite analyze_genotype_find.
    destruct (list_find _ NAT2_GENOTYPES) as [[i e]|] eqn:Hfind; [|tauto].
    apply list_find_Some in Hfind as (Hi & Ha & Hmin).
    do 3 (destruct i as [|i]; [injection Hi as <-; tauto|]).
    destruct i as [|i].
    { injection Hi as <-. exfalso. exact (Hmin 2%nat _ eq_refl (le_n 3) Ha). }
    destruct i as [|i]; [injection Hi as <-; tauto | discriminate Hi]. }
  split.
  - intros g t f Hres. rewrite Hres in Hcases.
    destruct Hcases as [H|[H|[H|[H|H]]]]; injection H as -> -> ->;
      (split; [discriminate | intros Hf; float_discr]).
  - intros d Hin Ha. unfold NAT2_GENOTYPES in Hin.
    do 3 (apply elem_of_cons in Hin as [Heq|Hin]; [discriminate Heq|]).
    apply elem_of_cons in Hin as [Heq|Hin]; [injection Heq as ->|];
      [|apply elem_of_cons in Hin as [Heq|Hin];
        [discriminate Heq | inversion Hin]].
    rewrite analyze_genotype_find.
    destruct (list_find _ NAT2_GENOTYPES) as [[i e]|] eqn:Hfind.
    + apply list_find_Some in Hfind as (Hi & Hai & Hmin).
      destruct i as [|[|[|i]]].
      * injection Hi as <-. exfalso. revert Hai Ha. clear.
        unfold agrees, agrees_on, mutation_positions; cbn [snd].
        rewrite !Forall_cons. vm_compute. intros (_ & H1 & _) (_ & H2 & _).
        congruence.
      * injection Hi as <-. exfalso. revert Hai Ha. clear.
        unfold agrees, agrees_on, mutation_positions; cbn [snd].
        rewrite !Forall_cons. vm_compute. intros (_ & H1 & _) (_ & H2 & _).
        congruence.
      * injection Hi as <-. reflexivity.
      * exfalso. exact (Hmin 2%nat _ eq_refl ltac:(lia) Ha).
    + exfalso. apply list_find_None in Hfind.
      rewrite Forall_forall in Hfind.
      refine (Hfind (_, _) _ Ha). apply (list_elem_of_lookup_2 _ 3%nat).
      reflexivity.
Qed.

Lemma analyze_genotype_never_NAT2_5_5_witness :
  (∃ d, ("NAT2*5/*5", d) ∈ NAT2_GENOTYPES ∧
        agrees (obs_of "." "C" "T" "." "G" ".") d) ∧
  analyze_genotype (obs_of "." "C" "T" "." "G" ".")
    = Ret ("NAT2*4/*5", "Intermediate", 15.0%float) ∧
  ("NAT2*4/*5" ≠ "NAT2*5/*5" ∧ 15.0%float ≠ 24.2%float).
Proof.
  assert (H : ∃ d, ("NAT2*5/*5", d) ∈ NAT2_GENOTYPES ∧
                   agrees (obs_of "." "C" "T" "." "G" ".") d).
  { eexists. split; [apply (list_elem_of_lookup_2 _ 3%nat); reflexivity|].
    apply (bool_decide_unpack _). vm_compute. exact I. }
  pose proof (analyze_genotype_never_NAT2_5_5 (obs_of "." "C" "T" "." "G" "."))
    as [Hnever Hshadow].
  destruct H as (d & Hin & Ha).
  pose proof (Hshadow _ Hin Ha) as Hres.
  exact (conj (ex_intro _ d (conj Hin Ha)) (conj Hres (Hnever _ _ _ Hres))).
Defined.

(** C5: an observation that differs from every record of the table at some
    one of the six positions (an absent position counting as ['.']) makes
    the analyser return the sentinel (Unknown, Unknown, 0.0) as an ordinary
    value; the observation with ['T'] at all six positions is such a case. *)
Theorem analyze_genotype_no_match :
  (∀ obs : gmap Z string,
     (∀ g d, (g, d) ∈ NAT2_GENOTYPES ->
             ∃ pos, pos ∈ mutation_positions ∧
                    mutations d !! pos ≠ Some (get obs pos ".")) ->
     analyze_genotype obs = Ret ("Unknown", "Unknown", 0.0%float)) ∧
  analyze_genotype (obs_of "T" "T" "T" "T" "T" "T")
    = Ret ("Unknown", "Unknown", 0.0%float).
Proof.
  split; [|vm_compute; reflexivity].
  intros obs Hdiff. rewrite analyze_genotype_find.
  destruct (list_find _ NAT2_GENOTYPES) as [[i [g d]]|] eqn:Hfind; [|reflexivity].
  exfalso. apply list_find_Some in Hfind as (Hi & Ha & _).
  destruct (Hdiff g d (list_elem_of_lookup_2 _ _ _ Hi)) as (pos & Hpos & Hne).
  unfold agrees, agrees_on in Ha. rewrite Forall_forall in Ha.
  exact (Hne (Ha pos Hpos)).
Qed.

Lemma analyze_genotype_no_match_witness :
  (∀ g d, (g, d) ∈ NAT2_GENOTYPES ->
          ∃ pos, pos ∈ mutation_positions ∧
                 mutations d !! pos
                   ≠ Some (get (obs_of "A" "." "." "." "." ".") pos ".")) ∧
  analyze_genotype (obs_of "A" "." "." "." "." ".")
    = Ret ("Unknown", "Unknown", 0.0%float).
Proof.
  assert (H : ∀ g d, (g, d) ∈ NAT2_GENOTYPES ->
            ∃ pos, pos ∈ mutation_positions ∧
                   mutations d !! pos
                     ≠ Some (get (obs_of "A" "." "." "." "." ".") pos ".")).
  { intros g d Hin. exists 282%Z. split; [apply list_elem_of_here|].
    unfold NAT2_GENOTYPES in Hin.
    repeat (apply elem_of_cons in Hin as [Heq|Hin];
            [injection Heq as _ ->; vm_compute; discriminate|]).
    inversion Hin. }
  exact (conj H (proj1 analyze_genotype_no_match _ H)).
Defined.

(** C7: a position absent from the observation counts as ['.']: adding it
    with the value ['.'] changes nothing, and the empty observation is
    answered like the one with ['.'] at all six positions, by
    (NAT2*4/*4, Fast, 3.3). *)
Theorem analyze_genotype_absent_is_dot :
  (∀ (obs : gmap Z string) (pos : Z),
     obs !! pos = None ->
     analyze_genotype (<[pos := "."]> obs) = analyze_genotype obs) ∧
  analyze_genotype ∅ = analyze_genotype (obs_of "." "." "." "." "." ".") ∧
  analyze_genotype ∅ = Ret ("NAT2*4/*4", "Fast", 3.3%float).
Proof.
  split; [|split; vm_compute; reflexivity].
  intros obs pos Habs. apply scan_ext. apply Forall_forall. intros p _.
  unfold get. destruct (decide (pos = p)) as [->|Hne].
  - rewrite lookup_insert_eq, Habs. reflexivity.
  - rewrite lookup_insert_ne by assumption. reflexivity.
Qed.

Lemma analyze_genotype_absent_is_dot_witness :
  (<[282%Z := "T"]> (<[481%Z := "."]> (<[590%Z := "A"]>
     (<[803%Z := "."]> (<[857%Z := "."]> ∅)))) : gmap Z string) !! 341%Z = None ∧
  analyze_genotype
    (<[341%Z := "."]>
       (<[282%Z := "T"]> (<[481%Z := "."]> (<[590%Z := "A"]>
          (<[803%Z := "."]> (<[857%Z := "."]> ∅))))))
    = analyze_genotype
        (<[282%Z := "T"]> (<[481%Z := "."]> (<[590%Z := "A"]>
           (<[803%Z := "."]> (<[857%Z := "."]> ∅))))) ∧
  analyze_genotype
    (<[282%Z := "T"]> (<[481%Z := "."]> (<[590%Z := "A"]>
       (<[803%Z := "."]> (<[857%Z := "."]> ∅)))))
    = Ret ("NAT2*6/*6", "Slow", 15.8%float).
Proof.
  assert (H : (<[282%Z := "T"]> (<[481%Z := "."]> (<[590%Z := "A"]>
                 (<[803%Z := "."]> (<[857%Z := "."]> ∅)))) : gmap Z string)
                !! 341%Z = None).
  { vm_compute. reflexivity. }
  refine (conj H (conj (proj1 analyze_genotype_absent_is_dot _ _ H) _)).
  vm_compute. reflexivity.
Defined.

(** C9: the two worked observations are answered with
    (NAT2*4/*14, Intermediate, 0.8) and (NAT2*6/*6, Slow, 15.8). *)
Theorem analyze_genotype_scenarios :
  analyze_genotype (obs_of "." "." "." "." "A" "G")
    = Ret ("NAT2*4/*14", "Intermediate", 0.8%float) ∧
  analyze_genotype (obs_of "T" "." "." "A" "." ".")
    = Ret ("NAT2*6/*6", "Slow", 15.8%float).
Proof. split; vm_compute; reflexivity. Qed.

(** C10: two observations that show the same values at the six positions
    (an absent position counting as ['.']) get the same answer, whatever
    else they contain. *)
Theorem analyze_genotype_six_positions (obs1 obs2 : gmap Z string) :
  (∀ pos, pos ∈ mutation_positions -> get obs1 pos "." = get obs2 pos ".") ->
  analyze_genotype obs1 = analyze_genotype obs2.
Proof.
  intros H. apply scan_ext. apply Forall_forall. exact H.
Qed.

Lemma analyze_genotype_six_positions_witness :
  (∀ pos, pos ∈ mutation_positions ->
          get (<[7%Z := "G"]> (<[282%Z := "T"]> (<[590%Z := "A"]> ∅))) pos "."
            = get (obs_of "T" "." "." "A" "." ".") pos ".") ∧
  analyze_genotype (<[7%Z := "G"]> (<[282%Z := "T"]> (<[590%Z := "A"]> ∅)))
    = analyze_genotype (obs_of "T" "." "." "A" "." ".").
Proof.
  assert (H : ∀ pos, pos ∈ mutation_positions ->
            get (<[7%Z := "G"]> (<[282%Z := "T"]> (<[590%Z := "A"]> ∅))) pos "."
              = get (obs_of "T" "." "." "A" "." ".") pos ".").
  { apply Forall_forall. apply (bool_decide_unpack _). vm_compute. exact I. }
  exact (conj H (analyze_genotype_six_positions _ _ H)).
Defined.

(** ** Properties of [get_dosing_recommendation] *)

(** C6: for every string other than Fast, Intermediate and Slow, and so for
    Unknown, the lookup returns the fixed fallback record. *)
Theorem get_dosing_recommendation_fallback :
  (∀ acetylator : string,
     acetylator ≠ "Fast" -> acetylator ≠ "Intermediate" ->
     acetylator ≠ "Slow" ->
     get_dosing_recommendation acetylator =
       {| dose := "Consult specialist";
          risk := "Unknown";
          monitoring := "Frequent monitoring required";
          details := "Individual assessment needed" |}) ∧
  get_dosing_recommendation "Unknown" =
    {| dose := "Consult specialist";
       risk := "Unknown";
       monitoring := "Frequent monitoring required";
       details := "Individual assessment needed" |}.
Proof.
  split; [|vm_compute; reflexivity].
  intros a HF HI HS. unfold get_dosing_recommendation, recommendations.
  rewrite !lookup_insert_ne by congruence. rewrite lookup_empty. reflexivity.
Qed.

Lemma get_dosing_recommendation_fallback_witness :
  ("fast" ≠ "Fast" ∧ "fast" ≠ "Intermediate" ∧ "fast" ≠ "Slow") ∧
  get_dosing_recommendation "fast" =
    {| dose := "Consult specialist";
       risk := "Unknown";
       monitoring := "Frequent monitoring required";
       details := "Individual assessment needed" |}.
Proof.
  assert (HF : "fast" ≠ "Fast") by discriminate.
  assert (HI : "fast" ≠ "Intermediate") by discriminate.
  assert (HS : "fast" ≠ "Slow") by discriminate.
  exact (conj (conj HF (conj HI HS))
              (proj1 get_dosing_recommendation_fallback _ HF HI HS)).
Defined.

(** C8: Fast, Intermediate and Slow each have a fixed record with four
    non-empty texts; the three records are pairwise distinct; the Slow
    record has dose 2.5-4 mg/kg/day and a risk text that mentions the
    higher risk of liver injury. *)
Theorem get_dosing_recommendation_known :
  recommendations !! "Fast" = Some (get_dosing_recommendation "Fast") ∧
  recommendations !! "Intermediate"
    = Some (get_dosing_recommendation "Intermediate") ∧
  recommendations !! "Slow" = Some (get_dosing_recommendation "Slow") ∧
  Forall (λ r, dose r ≠ "" ∧ risk r ≠ "" ∧ monitoring r ≠ "" ∧ details r ≠ "")
    [get_dosing_recommendation "Fast";
     get_dosing_recommendation "Intermediate";
     get_dosing_recommendation "Slow"] ∧
  NoDup [get_dosing_recommendation "Fast";
         get_dosing_recommendation "Intermediate";
         get_dosing_recommendation "Slow"] ∧
  dose (get_dosing_recommendation "Slow") = "2.5-4 mg/kg/day" ∧
  risk (get_dosing_recommendation "Slow")
    = "Higher risk of drug-induced liver injury" ∧
  mentions "Higher risk" (risk (get_dosing_recommendation "Slow")) = true ∧
  mentions "liver injury" (risk (get_dosing_recommendation "Slow")) = true.
Proof.
  repeat split; try (vm_compute; reflexivity).
  - vm_compute. repeat constructor; discriminate.
  - vm_compute. repeat constructor.
    + rewrite !elem_of_cons, elem_of_nil. intros [H|[H|H]];
        [discriminate H | discriminate H | exact H].
    + rewrite !elem_of_cons, elem_of_nil. intros [H|H];
        [discriminate H | exact H].
    + apply not_elem_of_nil.
Qed.


(** ** The analysis as a function of the six observed values *)

Lemma agrees_tuple obs d vs :
  expected_tuple d = Some <$> vs ->
  agrees obs d <-> observed_tuple obs = vs.
Proof.
  unfold agrees, agrees_on, expected_tuple, observed_tuple.
  generalize mutation_positions. intros ps. revert vs.
  induction ps as [|pos ps IH]; intros [|v vs] H; simpl in H; try discriminate H.
  - split; [reflexivity | constructor].
  - injection H as Hv Hvs. rewrite Forall_cons, (IH vs Hvs), Hv.
    cbn [fmap list_fmap]. split.
    + intros [Hpos Hrest]. injection Hpos as <-. rewrite Hrest. reflexivity.
    + intros Heq. injection Heq as -> ->. split; reflexivity.
Qed.

Ltac tuple_of H vs :=
  match type of H with
  | agrees ?o ?d => apply (proj1 (agrees_tuple o d vs eq_refl)) in H
  | ¬ agrees ?o ?d => rewrite (agrees_tuple o d vs eq_refl) in H
  end.

Lemma analyze_genotype_tuple obs :
  analyze_genotype obs = Ret (lookup_by_tuple (observed_tuple obs)).
Proof.
  rewrite analyze_genotype_find.
  destruct (list_find _ NAT2_GENOTYPES) as [[i e]|] eqn:Hfind.
  - apply list_find_Some in Hfind as (Hi & Ha & Hmin).
    destruct i as [|[|[|[|[|i]]]]]; try discriminate Hi; injection Hi as <-;
      cbn [snd] in Ha.
    + tuple_of Ha ["."; "."; "."; "."; "."; "."].
      rewrite Ha. reflexivity.
    + tuple_of Ha ["."; "."; "."; "."; "A"; "G"].
      rewrite Ha. reflexivity.
    + tuple_of Ha ["."; "C"; "T"; "."; "G"; "."].
      rewrite Ha. reflexivity.
    + exfalso. exact (Hmin 2%nat _ eq_refl ltac:(lia) Ha).
    + tuple_of Ha ["T"; "."; "."; "A"; "."; "."].
      rewrite Ha. reflexivity.
  - apply list_find_None in Hfind. unfold NAT2_GENOTYPES in Hfind.
    rewrite !Forall_cons in Hfind. cbn [snd] in Hfind.
    destruct Hfind as (H1 & H2 & H3 & _ & H5 & _).
    tuple_of H1 ["."; "."; "."; "."; "."; "."].
    tuple_of H2 ["."; "."; "."; "."; "A"; "G"].
    tuple_of H3 ["."; "C"; "T"; "."; "G"; "."].
    tuple_of H5 ["T"; "."; "."; "A"; "."; "."].
    unfold lookup_by_tuple. rewrite !decide_False by assumption. reflexivity.
Qed.

(** The labels of the table are pairwise distinct, as dictionary keys are. *)
Lemma NAT2_GENOTYPES_labels : NoDup (fst <$> NAT2_GENOTYPES).
Proof. apply (bool_decide_unpack _). vm_compute. exact I. Qed.

Lemma NAT2_GENOTYPES_functional g d1 d2 :
  (g, d1) ∈ NAT2_GENOTYPES -> (g, d2) ∈ NAT2_GENOTYPES -> d1 = d2.
Proof.
  intros H1 H2.
  apply list_elem_of_lookup in H1 as [i Hi]. apply list_elem_of_lookup in H2 as [j Hj].
  assert (i = j) as ->.
  { apply (NoDup_lookup _ i j g NAT2_GENOTYPES_labels);
      rewrite list_lookup_fmap; [rewrite Hi | rewrite Hj]; reflexivity. }
  congruence.
Qed.

(** A result other than the sentinel comes from an agreeing table entry. *)
Lemma analyze_genotype_hit obs g t f :
  analyze_genotype obs = Ret (g, t, f) -> g ≠ "Unknown" ->
  ∃ d, (g, d) ∈ NAT2_GENOTYPES ∧ t = acetylator_type d ∧ f = frequency d ∧
       agrees obs d.
Proof.
  rewrite analyze_genotype_find.
  destruct (list_find _ NAT2_GENOTYPES) as [[i [g' d]]|] eqn:Hfind.
  - intros Hres _. apply list_find_Some in Hfind as (Hi & Ha & _).
    injection Hres as <- <- <-. exists d.
    split; [exact (list_elem_of_lookup_2 _ _ _ Hi) | auto].
  - intros Hres Hg. injection Hres as <- _ _. congruence.
Qed.

(** ** Further properties of [analyze_genotype] *)

(** X1: for every observation, extra keys and values outside the alphabet
    included, the analysis raises nothing and returns the entry of a fixed
    decision table for the six observed values (an absent position read
    as ['.']). *)
Theorem analyze_genotype_decision_table (obs : gmap Z string) :
  analyze_genotype obs = Ret (lookup_by_tuple (observed_tuple obs)).
Proof. exact (analyze_genotype_tuple obs). Qed.

(** X2: a returned label other than Unknown is a key of the table, the
    returned acetylator type and frequency are those stored under it, and
    the stored mutations equal the observation at each of the six
    positions. *)
Theorem analyze_genotype_sound (obs : gmap Z string) g t f :
  analyze_genotype obs = Ret (g, t, f) -> g ≠ "Unknown" ->
  ∃ d, (g, d) ∈ NAT2_GENOTYPES ∧ t = acetylator_type d ∧ f = frequency d ∧
       ∀ pos, pos ∈ mutation_positions ->
              mutations d !! pos = Some (get obs pos ".").
Proof.
  intros Hres Hg. destruct (analyze_genotype_hit _ _ _ _ Hres Hg)
    as (d & Hin & Ht & Hf & Ha).
  exists d. repeat split; try assumption.
  unfold agrees, agrees_on in Ha. rewrite Forall_forall in Ha. exact Ha.
Qed.

Lemma analyze_genotype_sound_witness :
  (analyze_genotype (obs_of "T" "." "." "A" "." ".")
     = Ret ("NAT2*6/*6", "Slow", 15.8%float) ∧ "NAT2*6/*6" ≠ "Unknown") ∧
  ∃ d, ("NAT2*6/*6", d) ∈ NAT2_GENOTYPES ∧ "Slow" = acetylator_type d ∧
       15.8%float = frequency d ∧
       ∀ pos, pos ∈ mutation_positions ->
              mutations d !! pos
                = Some (get (obs_of "T" "." "." "A" "." ".") pos ".").
Proof.
  assert (H1 : analyze_genotype (obs_of "T" "." "." "A" "." ".")
                 = Ret ("NAT2*6/*6", "Slow", 15.8%float)).
  { vm_compute. reflexivity. }
  assert (H2 : "NAT2*6/*6" ≠ "Unknown") by discriminate.
  exact (conj (conj H1 H2) (analyze_genotype_sound _ _ _ _ H1 H2)).
Defined.

(** X3: the sentinel is returned exactly when no record of the table
    agrees with the observation at all six positions. *)
Theorem analyze_genotype_unknown_iff (obs : gmap Z string) :
  analyze_genotype obs = Ret ("Unknown", "Unknown", 0.0%float) <->
  ∀ g d, (g, d) ∈ NAT2_GENOTYPES -> ¬ agrees obs d.
Proof.
  rewrite analyze_genotype_find.
  destruct (list_find _ NAT2_GENOTYPES) as [[i [g d]]|] eqn:Hfind.
  - apply list_find_Some in Hfind as (Hi & Ha & _). split.
    + intros Hres. exfalso. injection Hres as Hg _ _. revert Hg.
      generalize (list_elem_of_lookup_2 _ _ _ Hi). unfold NAT2_GENOTYPES.
      rewrite !elem_of_cons, elem_of_nil.
      intros [H|[H|[H|[H|[H|[]]]]]]; injection H as -> _; discriminate.
    + intros Hno. exfalso.
      exact (Hno g d (list_elem_of_lookup_2 _ _ _ Hi) Ha).
  - apply list_find_None in Hfind. rewrite Forall_forall in Hfind.
    split; [|reflexivity]. intros _ g d Hin. exact (Hfind (g, d) Hin).
Qed.

Lemma analyze_genotype_unknown_iff_witness :
  (∀ g d, (g, d) ∈ NAT2_GENOTYPES ->
          ¬ agrees (obs_of "." "." "." "." "." "C") d) ∧
  ¬ analyze_genotype (obs_of "." "." "." "." "A" "G")
      = Ret ("Unknown", "Unknown", 0.0%float).
Proof.
  assert (H1 : analyze_genotype (obs_of "." "." "." "." "." "C")
                 = Ret ("Unknown", "Unknown", 0.0%float)).
  { vm_compute. reflexivity. }
  assert (H2 : ¬ ∀ g d, (g, d) ∈ NAT2_GENOTYPES ->
                        ¬ agrees (obs_of "." "." "." "." "A" "G") d).
  { intros H.
    refine (H _ _ (list_elem_of_lookup_2 NAT2_GENOTYPES 1%nat (_, _) eq_refl) _).
    apply (bool_decide_unpack _). vm_compute. exact I. }
  split.
  - exact (proj1 (analyze_genotype_unknown_iff _) H1).
  - intros H. exact (H2 (proj1 (analyze_genotype_unknown_iff _) H)).
Defined.

(** X4: the results the analysis can produce are the sentinel and the rows
    of the population table other than the row of NAT2*5/*5, and each of
    these is produced by some observation. *)
Theorem analyze_genotype_range (r : string * string * float) :
  (∃ obs, analyze_genotype obs = Ret r) <->
  r = ("Unknown", "Unknown", 0.0%float) ∨
  (r ∈ genotype_df ∧ fst (fst r) ≠ "NAT2*5/*5").
Proof.
  split.
  - intros [obs Hres]. rewrite analyze_genotype_tuple in Hres.
    injection Hres as <-. unfold lookup_by_tuple, genotype_df, NAT2_GENOTYPES.
    cbn [fmap list_fmap fst snd acetylator_type frequency].
    repeat case_decide; [right|right|right|right|left; reflexivity];
      (split; [rewrite !elem_of_cons; tauto | discriminate]).
  - unfold genotype_df, NAT2_GENOTYPES.
    cbn [fmap list_fmap fst snd acetylator_type frequency].
    rewrite !elem_of_cons, elem_of_nil.
    intros [->|[[->|[->|[->|[->|[->|[]]]]]] Hne]].
    + exists (obs_of "T" "T" "T" "T" "T" "T"). vm_compute. reflexivity.
    + exists (obs_of "." "." "." "." "." "."). vm_compute. reflexivity.
    + exists (obs_of "." "." "." "." "A" "G"). vm_compute. reflexivity.
    + exists (obs_of "." "C" "T" "." "G" "."). vm_compute. reflexivity.
    + exfalso. apply Hne. reflexivity.
    + exists (obs_of "T" "." "." "A" "." "."). vm_compute. reflexivity.
Qed.

Lemma analyze_genotype_range_witness :
  ("NAT2*6/*6", "Slow", 15.8%float) = ("Unknown", "Unknown", 0.0%float) ∨
  (("NAT2*6/*6", "Slow", 15.8%float) ∈ genotype_df ∧
   fst (fst ("NAT2*6/*6", "Slow", 15.8%float)) ≠ "NAT2*5/*5").
Proof.
  apply (proj1 (analyze_genotype_range _)).
  exists (obs_of "T" "." "." "A" "." "."). vm_compute. reflexivity.
Defined.

(** X5: a recognised result pins the observation down: two observations
    with the same result, not the sentinel, show the same value at each of
    the six positions. *)
Theorem analyze_genotype_hit_injective (obs1 obs2 : gmap Z string) :
  analyze_genotype obs1 = analyze_genotype obs2 ->
  analyze_genotype obs1 ≠ Ret ("Unknown", "Unknown", 0.0%float) ->
  ∀ pos, pos ∈ mutation_positions -> get obs1 pos "." = get obs2 pos ".".
Proof.
  intros Heq Hne.
  destruct (analyze_genotype_total obs1) as [[[g t] f] H1].
  assert (H2 : analyze_genotype obs2 = Ret (g, t, f)) by congruence.
  assert (Hg : g ≠ "Unknown").
  { intros ->. apply Hne. rewrite H1. rewrite analyze_genotype_tuple in H1.
    injection H1 as H1. revert H1. unfold lookup_by_tuple.
    repeat case_decide; intros [= <- <-]; try discriminate. reflexivity. }
  destruct (analyze_genotype_hit _ _ _ _ H1 Hg) as (d1 & Hin1 & _ & _ & Ha1).
  destruct (analyze_genotype_hit _ _ _ _ H2 Hg) as (d2 & Hin2 & _ & _ & Ha2).
  rewrite (NAT2_GENOTYPES_functional _ _ _ Hin1 Hin2) in Ha1.
  unfold agrees, agrees_on in Ha1, Ha2. rewrite Forall_forall in Ha1, Ha2.
  intros pos Hpos. specialize (Ha1 pos Hpos). specialize (Ha2 pos Hpos).
  congruence.
Qed.

Lemma analyze_genotype_hit_injective_witness :
  (analyze_genotype (<[282%Z := "T"]> (<[590%Z := "A"]> ∅))
     = analyze_genotype (obs_of "T" "." "." "A" "." ".") ∧
   analyze_genotype (<[282%Z := "T"]> (<[590%Z := "A"]> ∅))
     ≠ Ret ("Unknown", "Unknown", 0.0%float)) ∧
  get (<[282%Z := "T"]> (<[590%Z := "A"]> ∅)) 481 "."
    = get (obs_of "T" "." "." "A" "." ".") 481 ".".
Proof.
  assert (H1 : analyze_genotype (<[282%Z := "T"]> (<[590%Z := "A"]> ∅))
                 = analyze_genotype (obs_of "T" "." "." "A" "." ".")).
  { vm_compute. reflexivity. }
  assert (H2 : analyze_genotype (<[282%Z := "T"]> (<[590%Z := "A"]> ∅))
                 ≠ Ret ("Unknown", "Unknown", 0.0%float)).
  { vm_compute. discriminate. }
  refine (conj (conj H1 H2) (analyze_genotype_hit_injective _ _ H1 H2 481%Z _)).
  unfold mutation_positions. rewrite !elem_of_cons. tauto.
Defined.

(** ** Missing keys and the order of evaluation *)



(** X7: on any table, once an entry agrees and the entries before it
    carry all six positions and disagree, the scan answers with that entry;
    the entries after it are not examined, whatever they contain. *)
Theorem scan_stops_at_first_hit (obs : gmap Z string)
    (before after : list (string * genotype_data)) g d :
  table_complete before ->
  Forall (λ entry, ¬ agrees obs (snd entry)) before ->
  agrees obs d ->
  scan (before ++ (g, d) :: after)%list obs
    = Ret (g, acetylator_type d, frequency d).
Proof.
  intros Hc Hno Ha. induction before as [|[g' d'] before IH].
  - cbn [app scan]. apply all_match_true in Ha. rewrite Ha. reflexivity.
  - apply Forall_cons in Hc as [Hd Hc]. apply Forall_cons in Hno as [Hn Hno].
    cbn [app scan]. rewrite (all_match_decide _ _ _ Hd).
    rewrite bool_decide_eq_false_2 by exact Hn. exact (IH Hc Hno).
Qed.

Lemma scan_stops_at_first_hit_witness :
  scan (take 1 NAT2_GENOTYPES
          ++ ("NAT2*4/*14",
              {| acetylator_type := "Intermediate"; frequency := 0.8%float;
                 mutations := <[282%Z := "."]> (<[341%Z := "."]> (<[481%Z := "."]>
                   (<[590%Z := "."]> (<[803%Z := "A"]> (<[857%Z := "G"]> ∅))))) |})
          :: [("broken",
               {| acetylator_type := "Slow"; frequency := 1.0%float;
                  mutations := ∅ |})])%list
       (obs_of "." "." "." "." "A" "G")
  = Ret ("NAT2*4/*14", "Intermediate", 0.8%float).
Proof.
  apply scan_stops_at_first_hit;
    apply (bool_decide_unpack _); vm_compute; exact I.
Defined.

(** ** The patient form *)

Lemma form_lookup select pos :
  form_mutations select !! pos =
    if decide (pos ∈ mutation_positions) then Some (select pos) else None.
Proof.
  unfold form_mutations, mutation_positions. cbn [foldl].
  rewrite !lookup_insert, lookup_empty.
  repeat case_decide; subst; try reflexivity; exfalso;
    match goal with
    | H : _ ∉ _ |- _ => apply H; rewrite !elem_of_cons; tauto
    | H : _ ∈ _ |- _ =>
        rewrite !elem_of_cons, elem_of_nil in H; intuition congruence
    end.
Qed.

Lemma form_observed select :
  observed_tuple (form_mutations select) = select <$> mutation_positions.
Proof.
  unfold observed_tuple. apply list_fmap_ext. intros i pos Hpos.
  unfold get. rewrite form_lookup.
  rewrite decide_True by exact (list_elem_of_lookup_2 _ _ _ Hpos). reflexivity.
Qed.

(** X8: whatever is selected, the dictionary the form submits has exactly
    the six positions as keys, each with the value selected for it. *)
Theorem form_mutations_lookup (select : Z -> string) (pos : Z) :
  form_mutations select !! pos =
    if decide (pos ∈ mutation_positions) then Some (select pos) else None.
Proof. exact (form_lookup select pos). Qed.

(** X9: the analysis of a submitted form never raises and is the decision
    table applied to the six selected values; the default for absent
    positions plays no part. *)
Theorem analyze_genotype_form (select : Z -> string) :
  analyze_genotype (form_mutations select)
    = Ret (lookup_by_tuple (select <$> mutation_positions)).
Proof. rewrite analyze_genotype_tuple, form_observed. reflexivity. Qed.

(** X10: every choice of options in the six select boxes is one of 15625
    dictionaries, and exactly 4 of these are recognised, all others being
    answered with Unknown. *)
Theorem all_forms_recognised :
  (∀ select : Z -> string,
     (∀ pos, pos ∈ mutation_positions -> select pos ∈ options) ->
     form_mutations select ∈ all_forms) ∧
  Z.of_nat (length all_forms) = 15625%Z ∧
  length (filter (λ obs, recognised (analyze_genotype obs) = true) all_forms)
    = 4%nat.
Proof.
  split; [|split; vm_compute; reflexivity].
  intros select Hsel. unfold all_forms.
  apply list_elem_of_bind. exists (select 282%Z).
  split; [|apply Hsel; unfold mutation_positions; rewrite !elem_of_cons; tauto].
  apply list_elem_of_bind. exists (select 341%Z).
  split; [|apply Hsel; unfold mutation_positions; rewrite !elem_of_cons; tauto].
  apply list_elem_of_bind. exists (select 481%Z).
  split; [|apply Hsel; unfold mutation_positions; rewrite !elem_of_cons; tauto].
  apply list_elem_of_bind. exists (select 590%Z).
  split; [|apply Hsel; unfold mutation_positions; rewrite !elem_of_cons; tauto].
  apply list_elem_of_bind. exists (select 803%Z).
  split; [|apply Hsel; unfold mutation_positions; rewrite !elem_of_cons; tauto].
  apply list_elem_of_bind. exists (select 857%Z).
  split; [|apply Hsel; unfold mutation_positions; rewrite !elem_of_cons; tauto].
  apply list_elem_of_singleton. apply map_eq. intros pos.
  rewrite !form_lookup. case_decide as Hpos; [|reflexivity]. f_equal.
  unfold mutation_positions in Hpos. rewrite !elem_of_cons, elem_of_nil in Hpos.
  repeat case_decide; subst; try reflexivity. intuition congruence.
Qed.

Lemma all_forms_recognised_witness :
  (∀ pos, pos ∈ mutation_positions -> (λ _ : Z, "G") pos ∈ options) ∧
  form_mutations (λ _, "G") ∈ all_forms.
Proof.
  assert (H : ∀ pos, pos ∈ mutation_positions -> (λ _ : Z, "G") pos ∈ options).
  { intros pos _. unfold options. rewrite !elem_of_cons. tauto. }
  exact (conj H (proj1 all_forms_recognised _ H)).
Defined.

(** ** The report: analysis followed by the recommendation *)

Lemma dosing_unknown a :
  a ∉ ["Fast"; "Intermediate"; "Slow"] ->
  get_dosing_recommendation a = get_dosing_recommendation "Unknown".
Proof.
  rewrite !elem_of_cons, elem_of_nil. intros Ha.
  unfold get_dosing_recommendation, recommendations.
  rewrite !lookup_insert_ne by (intros <-; tauto).
  rewrite lookup_empty. reflexivity.
Qed.

Lemma dosing_cases a :
  a = "Fast" ∨ a = "Intermediate" ∨ a = "Slow" ∨
  a ∉ ["Fast"; "Intermediate"; "Slow"].
Proof.
  destruct (decide (a ∈ ["Fast"; "Intermediate"; "Slow"])) as [Hin|Hn];
    [|tauto].
  rewrite !elem_of_cons, elem_of_nil in Hin. tauto.
Qed.

(** X11: the report never fails; it shows the fallback advice exactly
    when the genotype is Unknown, and for every other genotype the advice
    stored in the recommendation table under the returned acetylator
    type.  Every acetylator type of the genotype table, that of the
    unreachable NAT2*5/*5 included, is a key of the recommendation table,
    so no record of the genotype table could lead to the fallback. *)
Theorem generate_recommendations_advice :
  (∀ obs : gmap Z string,
     ∃ g t f r,
       generate_recommendations obs = Ret (g, t, f, r) ∧
       analyze_genotype obs = Ret (g, t, f) ∧
       (g = "Unknown" <-> dose r = "Consult specialist") ∧
       (g ≠ "Unknown" -> recommendations !! t = Some r)) ∧
  Forall (λ entry,
            recommendations !! acetylator_type (snd entry)
              = Some (get_dosing_recommendation (acetylator_type (snd entry))))
         NAT2_GENOTYPES.
Proof.
  split; [|repeat constructor].
  intros obs. unfold generate_recommendations. rewrite analyze_genotype_tuple.
  unfold lookup_by_tuple. cbn [mbind result_bind].
  repeat case_decide; do 4 eexists;
    (split; [reflexivity|]); (split; [reflexivity|]);
    (split;
     [split; intros Hx;
      first [discriminate Hx | vm_compute in Hx; discriminate Hx
            | vm_compute; reflexivity]|]);
    first [intros _; vm_compute; reflexivity
          | intros Hx; exfalso; apply Hx; reflexivity].
Qed.

(** X12: the dose shown in the report is decided by the six observed
    values alone: 5-6 mg/kg/day for ['.'] everywhere, 4-5 mg/kg/day for the
    alleles of NAT2*4/*14 or NAT2*4/*5, 2.5-4 mg/kg/day only for the
    alleles of NAT2*6/*6, and the referral to a specialist otherwise. *)
Theorem generate_recommendations_dose (obs : gmap Z string) :
  ∃ g t f r,
    generate_recommendations obs = Ret (g, t, f, r) ∧
    dose r =
      if decide (observed_tuple obs = ["."; "."; "."; "."; "."; "."])
      then "5-6 mg/kg/day"
      else if decide (observed_tuple obs = ["."; "."; "."; "."; "A"; "G"] ∨
                      observed_tuple obs = ["."; "C"; "T"; "."; "G"; "."])
      then "4-5 mg/kg/day"
      else if decide (observed_tuple obs = ["T"; "."; "."; "A"; "."; "."])
      then "2.5-4 mg/kg/day"
      else "Consult specialist".
Proof.
  unfold generate_recommendations. rewrite analyze_genotype_tuple.
  unfold lookup_by_tuple. cbn [mbind result_bind].
  repeat case_decide; do 4 eexists; (split; [reflexivity|]);
    first [ reflexivity | exfalso; intuition congruence ].
Qed.

(** ** Further properties of [get_dosing_recommendation] *)

(** X13: two arguments get the same recommendation exactly when they are
    equal or neither is one of Fast, Intermediate and Slow; the comparison
    is on the exact spelling. *)
Theorem get_dosing_recommendation_injective (a b : string) :
  get_dosing_recommendation a = get_dosing_recommendation b <->
  a = b ∨ ((a ∉ ["Fast"; "Intermediate"; "Slow"]) ∧
           (b ∉ ["Fast"; "Intermediate"; "Slow"])).
Proof.
  split.
  - intros Heq.
    destruct (dosing_cases a) as [->|[->|[->|Ha]]];
      destruct (dosing_cases b) as [->|[->|[->|Hb]]];
      try (left; reflexivity); try (right; split; assumption);
      exfalso; revert Heq;
      rewrite ?(dosing_unknown _ Ha), ?(dosing_unknown _ Hb);
      vm_compute; discriminate.
  - intros [->|[Ha Hb]]; [reflexivity|].
    rewrite (dosing_unknown _ Ha), (dosing_unknown _ Hb). reflexivity.
Qed.

Lemma get_dosing_recommendation_injective_witness :
  get_dosing_recommendation "slow" = get_dosing_recommendation "Rapid" ∧
  ¬ get_dosing_recommendation "slow" = get_dosing_recommendation "Slow".
Proof.
  split.
  - apply (proj2 (get_dosing_recommendation_injective _ _)). right.
    split; apply (bool_decide_unpack _); vm_compute; exact I.
  - intros H. apply (proj1 (get_dosing_recommendation_injective _ _)) in H.
    destruct H as [H|[_ H]]; [discriminate H|].
    apply H. rewrite !elem_of_cons. tauto.
Defined.

(** ** The population statistics *)

(** X14: on any table, the items summed for Fast, Intermediate and Slow
    are together, up to order, the frequencies of the records whose
    acetylator type is one of these three, each taken once; a record of
    any other type enters no total.  For [NAT2_GENOTYPES] every record is
    counted exactly once. *)
Theorem class_frequencies_partition :
  (∀ table : list (string * genotype_data),
     (class_frequencies table "Fast"
        ++ class_frequencies table "Intermediate"
        ++ class_frequencies table "Slow")%list
     ≡ₚ frequency <$>
          filter (λ data, acetylator_type data ∈ ["Fast"; "Intermediate"; "Slow"])
                 (snd <$> table)) ∧
  (class_frequencies NAT2_GENOTYPES "Fast"
     ++ class_frequencies NAT2_GENOTYPES "Intermediate"
     ++ class_frequencies NAT2_GENOTYPES "Slow")%list
  ≡ₚ (λ entry, frequency (snd entry)) <$> NAT2_GENOTYPES.
Proof.
  assert (Hgen : ∀ table : list (string * genotype_data),
     (class_frequencies table "Fast"
        ++ class_frequencies table "Intermediate"
        ++ class_frequencies table "Slow")%list
     ≡ₚ frequency <$>
          filter (λ data, acetylator_type data ∈ ["Fast"; "Intermediate"; "Slow"])
                 (snd <$> table)).
  { induction table as [|[g d] table IH]; [reflexivity|].
    unfold class_frequencies in *. cbn [fmap list_fmap snd].
    rewrite !filter_cons.
    destruct (dosing_cases (acetylator_type d)) as [Ht|[Ht|[Ht|Ht]]];
      [rewrite Ht|rewrite Ht|rewrite Ht|];
      repeat case_decide; try discriminate;
      try (exfalso; rewrite ?elem_of_cons, ?elem_of_nil in *; tauto);
      cbn [fmap list_fmap app].
    - constructor. exact IH.
    - rewrite <- Permutation_middle. constructor. exact IH.
    - rewrite <- !Permutation_middle. constructor. exact IH.
    - exact IH. }
  split; [exact Hgen|]. rewrite Hgen. reflexivity.
Qed.

(** X15: the three totals of the bar chart are 3.3, 15.8 and 40.0, as
    floats equal to these literals, both when [sum] adds from left to
    right and when it uses compensated summation. *)
Theorem frequencies_totals :
  frequencies sum_plain
    = [ ("Fast", PyFloat 3.3); ("Intermediate", PyFloat 15.8);
        ("Slow", PyFloat 40.0) ] ∧
  frequencies sum_compensated
    = [ ("Fast", PyFloat 3.3); ("Intermediate", PyFloat 15.8);
        ("Slow", PyFloat 40.0) ].
Proof. split; vm_compute; reflexivity. Qed.
